(** * The flight-mode state machine of the quadrotor autopilot

    A shallow embedding of [control/autopilot/src/autopilot.cpp]: the member
    variables of [AutoPilot] become a record, the callbacks become programs
    of a small state monad over that record and the ROS environment (the
    wall clock, the [control_command] topic and the console log), and the
    properties of the mode machine are proved about those programs.

    Numbers: every [double] and every [ros::Time] / [ros::Duration] is an
    exact rational ([Q]); rounding, infinities and NaN are not modelled. *)

From Stdlib Require Import QArith Lqa Bool String List Sorted Lia.
Import ListNotations.
Local Open Scope Q_scope.

(* ================================================================== *)
(** ** Numbers and comparisons *)

(** [ros::Time] and the seconds of a [ros::Duration]. *)
Definition Time := Q.

(** [a <= b] on doubles. *)
Definition Qleb (a b : Q) : bool := Qle_bool a b.

(** [a < b] on doubles. *)
Definition Qltb (a b : Q) : bool := negb (Qle_bool b a).

(** [fmax(a, b)]. *)
Definition fmax (a b : Q) : Q := if Qleb a b then b else a.

(* ================================================================== *)
(** ** Data model *)

(** [enum class States] as the [switch] of [stateEstimateCallback] lists it. *)
Inductive States : Set :=
| OFF
| START
| HOVER
| LAND
| EMERGENCY_LAND
| BREAKING
| GO_TO_POSE
| VELOCITY_CONTROL
| REFERENCE_CONTROL
| TRAJECTORY_CONTROL
| COMMAND_FEEDTHROUGH
| RC_MANUAL.

Scheme Equality for States.

(** [Eigen::Vector3d]. *)
Record Vector3d : Set := { x : Q; y : Q; z : Q }.

Definition Vector3d_Zero : Vector3d := {| x := 0; y := 0; z := 0 |}.

Definition set_z (v : Q) (p : Vector3d) : Vector3d :=
  {| x := x p; y := y p; z := v |}.

(** [Eigen::Quaterniond]. *)
Record Quaterniond : Set := { qw : Q; qx : Q; qy : Q; qz : Q }.

Definition Quaterniond_Identity : Quaterniond :=
  {| qw := 1; qx := 0; qy := 0; qz := 0 |}.

(** Modelled from the spec: the type [quadrotor_common::QuadStateEstimate]
    is declared outside this file. The spec gives it a position, an
    orientation, a velocity, a validity flag (what [isValid()] answers) and
    a coordinate-frame tag in World, Optitrack, Vision, Local, Unknown. *)
Module QuadStateEstimate.

Inductive CoordinateFrame : Set :=
| WORLD
| OPTITRACK
| VISION
| LOCAL
| UNKNOWN.

Record t : Set := {
  position : Vector3d;
  orientation : Quaterniond;
  velocity : Vector3d;
  isValid : bool;
  coordinate_frame : CoordinateFrame
}.

(** The value-initialised estimate of the constructor's
    [received_state_est_()]: nothing received yet. *)
Definition empty : t := {|
  position := Vector3d_Zero;
  orientation := Quaterniond_Identity;
  velocity := Vector3d_Zero;
  isValid := false;
  coordinate_frame := UNKNOWN
|}.

Definition is_absolute (f : CoordinateFrame) : bool :=
  match f with WORLD | OPTITRACK => true | _ => false end.

Definition is_relative (f : CoordinateFrame) : bool :=
  match f with VISION | LOCAL => true | _ => false end.

End QuadStateEstimate.

(** Modelled from the spec: [quadrotor_common::TrajectoryPoint] is declared
    outside this file; the spec gives it a target position, a velocity and
    a heading. A fresh [TrajectoryPoint()] is all zero. *)
Module TrajectoryPoint.

Record t : Set := {
  position : Vector3d;
  velocity : Vector3d;
  heading : Q
}.

Definition fresh : t :=
  {| position := Vector3d_Zero; velocity := Vector3d_Zero; heading := 0 |}.

Definition set_position (p : Vector3d) (r : t) : t :=
  {| position := p; velocity := velocity r; heading := heading r |}.

Definition set_velocity (v : Vector3d) (r : t) : t :=
  {| position := position r; velocity := v; heading := heading r |}.

Definition set_heading (h : Q) (r : t) : t :=
  {| position := position r; velocity := velocity r; heading := h |}.

End TrajectoryPoint.

(** Modelled from the spec: [quadrotor_common::ControlCommand] and its
    message are declared outside this file. The spec gives a command a
    control-mode tag (None, BodyRates, ...), an armed flag, a body-rate
    setpoint, a collective thrust and two timestamps; a command whose tag
    is None is the sentinel that is never published, and a freshly
    constructed command carries that tag. *)
Module ControlCommand.

Inductive ControlMode : Set :=
| NONE
| ATTITUDE
| BODY_RATES
| ANGULAR_ACCELERATIONS
| ROTOR_THRUSTS.

Record t : Set := {
  control_mode : ControlMode;
  armed : bool;
  bodyrates : Vector3d;
  collective_thrust : Q;
  timestamp : Time;
  expected_execution_time : Time
}.

Definition fresh : t := {|
  control_mode := NONE;
  armed := false;
  bodyrates := Vector3d_Zero;
  collective_thrust := 0;
  timestamp := 0;
  expected_execution_time := 0
|}.

Definition set_control_mode (m : ControlMode) (c : t) : t :=
  {| control_mode := m; armed := armed c; bodyrates := bodyrates c;
     collective_thrust := collective_thrust c; timestamp := timestamp c;
     expected_execution_time := expected_execution_time c |}.

Definition set_armed (a : bool) (c : t) : t :=
  {| control_mode := control_mode c; armed := a; bodyrates := bodyrates c;
     collective_thrust := collective_thrust c; timestamp := timestamp c;
     expected_execution_time := expected_execution_time c |}.

Definition set_bodyrates (b : Vector3d) (c : t) : t :=
  {| control_mode := control_mode c; armed := armed c; bodyrates := b;
     collective_thrust := collective_thrust c; timestamp := timestamp c;
     expected_execution_time := expected_execution_time c |}.

Definition set_collective_thrust (f : Q) (c : t) : t :=
  {| control_mode := control_mode c; armed := armed c;
     bodyrates := bodyrates c; collective_thrust := f;
     timestamp := timestamp c;
     expected_execution_time := expected_execution_time c |}.

Definition set_timestamp (s : Time) (c : t) : t :=
  {| control_mode := control_mode c; armed := armed c;
     bodyrates := bodyrates c; collective_thrust := collective_thrust c;
     timestamp := s;
     expected_execution_time := expected_execution_time c |}.

Definition set_expected_execution_time (s : Time) (c : t) : t :=
  {| control_mode := control_mode c; armed := armed c;
     bodyrates := bodyrates c; collective_thrust := collective_thrust c;
     timestamp := timestamp c; expected_execution_time := s |}.

(** Modelled from the spec: [ControlCommand::zero()] is defined outside
    this file. The spec calls its result the zero / disarmed command, and
    has it published from the Off tick, so its tag is not the sentinel:
    body rates mode, disarmed, zero rates, zero thrust. Its timestamps
    are left as they were; the tick overwrites both before publishing. *)
Definition zero (c : t) : t := {|
  control_mode := BODY_RATES;
  armed := false;
  bodyrates := Vector3d_Zero;
  collective_thrust := 0;
  timestamp := timestamp c;
  expected_execution_time := expected_execution_time c
|}.

Definition is_NONE (m : ControlMode) : bool :=
  match m with NONE => true | _ => false end.

End ControlCommand.

(* ================================================================== *)
(** ** The ROS environment *)

Inductive Severity : Set := INFO | WARN | ERROR.

(** One executed logging statement: its level, the period of a
    [ROS_*_THROTTLE] statement, and its format string. *)
Record LogCall : Set := {
  severity : Severity;
  throttle : option Q;
  text : string
}.

(** What the node has done to the outside: how often it has read
    [ros::Time::now()], the messages sent on [control_command] (oldest
    first) and the logging statements executed (oldest first). *)
Record Ros : Set := {
  now_calls : nat;
  control_command_pub : list ControlCommand.t;
  rosout : list LogCall
}.

Definition Ros_start : Ros :=
  {| now_calls := 0; control_command_pub := []; rosout := [] |}.

(* ================================================================== *)
(** ** The node *)

(** *** Collaborators and configuration

    What the node is constructed with: the state predictor, the base
    controller, the yaw of a quaternion, the wall clock and the parameters
    read by [loadParameters]. *)
Class Env : Type := {
  (** The state of [state_predictor_] and the three calls made on it. *)
  StatePredictor : Type;
  updateWithStateEstimate :
    StatePredictor -> QuadStateEstimate.t -> StatePredictor;
  pushCommandToQueue :
    StatePredictor -> ControlCommand.t -> StatePredictor;
  predictState : StatePredictor -> Time -> QuadStateEstimate.t;
  (** The predictor as the constructor builds it. *)
  StatePredictor_new : StatePredictor;
  (** [base_controller_.run(state_estimate, reference_state_,
      base_controller_params_)], the parameters being fixed at start-up. *)
  base_controller_run :
    QuadStateEstimate.t -> TrajectoryPoint.t -> ControlCommand.t;
  (** [quadrotor_common::quaternionToEulerAnglesZYX(q).z()]. *)
  quaternionToYaw : Quaterniond -> Q;
  (** [wall_clock n] is what the [n]-th call of [ros::Time::now()] since
      start-up returns. *)
  wall_clock : nat -> Time;
  control_command_delay_ : Q;
  optitrack_land_drop_height_ : Q;
  optitrack_start_land_timeout_ : Q;
  optitrack_start_height_ : Q;
  start_idle_duration_ : Q;
  idle_thrust_ : Q;
  start_land_velocity_ : Q;
  propeller_ramp_down_timeout_ : Q
}.

Section AutoPilot.

Context {E : Env}.

(** *** Member variables *)

Record AutoPilot : Type := {
  autopilot_state_ : States;
  state_before_rc_manual_flight_ : States;
  state_predictor_ : StatePredictor;
  reference_state_ : TrajectoryPoint.t;
  received_state_est_ : QuadStateEstimate.t;
  state_estimate_available_ : bool;
  time_of_switch_to_current_state_ : Time;
  first_time_in_new_state_ : bool;
  initial_start_position_ : Vector3d;
  initial_land_position_ : Vector3d;
  time_to_ramp_down_ : bool;
  time_started_ramping_down_ : Time;
  initial_drop_thrust_ : Q
}.

Definition set_autopilot_state_ (v : States) (a : AutoPilot) :=
  Build_AutoPilot v (state_before_rc_manual_flight_ a)
    (state_predictor_ a) (reference_state_ a) (received_state_est_ a)
    (state_estimate_available_ a) (time_of_switch_to_current_state_ a)
    (first_time_in_new_state_ a) (initial_start_position_ a)
    (initial_land_position_ a) (time_to_ramp_down_ a)
    (time_started_ramping_down_ a) (initial_drop_thrust_ a).

Definition set_state_before_rc_manual_flight_ (v : States) (a : AutoPilot) :=
  Build_AutoPilot (autopilot_state_ a) v
    (state_predictor_ a) (reference_state_ a) (received_state_est_ a)
    (state_estimate_available_ a) (time_of_switch_to_current_state_ a)
    (first_time_in_new_state_ a) (initial_start_position_ a)
    (initial_land_position_ a) (time_to_ramp_down_ a)
    (time_started_ramping_down_ a) (initial_drop_thrust_ a).

Definition set_state_predictor_ (v : StatePredictor) (a : AutoPilot) :=
  Build_AutoPilot (autopilot_state_ a) (state_before_rc_manual_flight_ a)
    v (reference_state_ a) (received_state_est_ a)
    (state_estimate_available_ a) (time_of_switch_to_current_state_ a)
    (first_time_in_new_state_ a) (initial_start_position_ a)
    (initial_land_position_ a) (time_to_ramp_down_ a)
    (time_started_ramping_down_ a) (initial_drop_thrust_ a).

Definition set_reference_state_ (v : TrajectoryPoint.t) (a : AutoPilot) :=
  Build_AutoPilot (autopilot_state_ a) (state_before_rc_manual_flight_ a)
    (state_predictor_ a) v (received_state_est_ a)
    (state_estimate_available_ a) (time_of_switch_to_current_state_ a)
    (first_time_in_new_state_ a) (initial_start_position_ a)
    (initial_land_position_ a) (time_to_ramp_down_ a)
    (time_started_ramping_down_ a) (initial_drop_thrust_ a).

Definition set_received_state_est_ (v : QuadStateEstimate.t) (a : AutoPilot) :=
  Build_AutoPilot (autopilot_state_ a) (state_before_rc_manual_flight_ a)
    (state_predictor_ a) (reference_state_ a) v
    (state_estimate_available_ a) (time_of_switch_to_current_state_ a)
    (first_time_in_new_state_ a) (initial_start_position_ a)
    (initial_land_position_ a) (time_to_ramp_down_ a)
    (time_started_ramping_down_ a) (initial_drop_thrust_ a).

Definition set_state_estimate_available_ (v : bool) (a : AutoPilot) :=
  Build_AutoPilot (autopilot_state_ a) (state_before_rc_manual_flight_ a)
    (state_predictor_ a) (reference_state_ a) (received_state_est_ a)
    v (time_of_switch_to_current_state_ a)
    (first_time_in_new_state_ a) (initial_start_position_ a)
    (initial_land_position_ a) (time_to_ramp_down_ a)
    (time_started_ramping_down_ a) (initial_drop_thrust_ a).

Definition set_time_of_switch_to_current_state_ (v : Time) (a : AutoPilot) :=
  Build_AutoPilot (autopilot_state_ a) (state_before_rc_manual_flight_ a)
    (state_predictor_ a) (reference_state_ a) (received_state_est_ a)
    (state_estimate_available_ a) v
    (first_time_in_new_state_ a) (initial_start_position_ a)
    (initial_land_position_ a) (time_to_ramp_down_ a)
    (time_started_ramping_down_ a) (initial_drop_thrust_ a).

Definition set_first_time_in_new_state_ (v : bool) (a : AutoPilot) :=
  Build_AutoPilot (autopilot_state_ a) (state_before_rc_manual_flight_ a)
    (state_predictor_ a) (reference_state_ a) (received_state_est_ a)
    (state_estimate_available_ a) (time_of_switch_to_current_state_ a)
    v (initial_start_position_ a)
    (initial_land_position_ a) (time_to_ramp_down_ a)
    (time_started_ramping_down_ a) (initial_drop_thrust_ a).

Definition set_initial_start_position_ (v : Vector3d) (a : AutoPilot) :=
  Build_AutoPilot (autopilot_state_ a) (state_before_rc_manual_flight_ a)
    (state_predictor_ a) (reference_state_ a) (received_state_est_ a)
    (state_estimate_available_ a) (time_of_switch_to_current_state_ a)
    (first_time_in_new_state_ a) v
    (initial_land_position_ a) (time_to_ramp_down_ a)
    (time_started_ramping_down_ a) (initial_drop_thrust_ a).

Definition set_initial_land_position_ (v : Vector3d) (a : AutoPilot) :=
  Build_AutoPilot (autopilot_state_ a) (state_before_rc_manual_flight_ a)
    (state_predictor_ a) (reference_state_ a) (received_state_est_ a)
    (state_estimate_available_ a) (time_of_switch_to_current_state_ a)
    (first_time_in_new_state_ a) (initial_start_position_ a)
    v (time_to_ramp_down_ a)
    (time_started_ramping_down_ a) (initial_drop_thrust_ a).

Definition set_time_to_ramp_down_ (v : bool) (a : AutoPilot) :=
  Build_AutoPilot (autopilot_state_ a) (state_before_rc_manual_flight_ a)
    (state_predictor_ a) (reference_state_ a) (received_state_est_ a)
    (state_estimate_available_ a) (time_of_switch_to_current_state_ a)
    (first_time_in_new_state_ a) (initial_start_position_ a)
    (initial_land_position_ a) v
    (time_started_ramping_down_ a) (initial_drop_thrust_ a).

Definition set_time_started_ramping_down_ (v : Time) (a : AutoPilot) :=
  Build_AutoPilot (autopilot_state_ a) (state_before_rc_manual_flight_ a)
    (state_predictor_ a) (reference_state_ a) (received_state_est_ a)
    (state_estimate_available_ a) (time_of_switch_to_current_state_ a)
    (first_time_in_new_state_ a) (initial_start_position_ a)
    (initial_land_position_ a) (time_to_ramp_down_ a)
    v (initial_drop_thrust_ a).

Definition set_initial_drop_thrust_ (v : Q) (a : AutoPilot) :=
  Build_AutoPilot (autopilot_state_ a) (state_before_rc_manual_flight_ a)
    (state_predictor_ a) (reference_state_ a) (received_state_est_ a)
    (state_estimate_available_ a) (time_of_switch_to_current_state_ a)
    (first_time_in_new_state_ a) (initial_start_position_ a)
    (initial_land_position_ a) (time_to_ramp_down_ a)
    (time_started_ramping_down_ a) v.

(** *** The monad of the callbacks

    A callback runs to completion on the node ([self]) and the
    environment ([ros]). *)

Record World : Type := { self : AutoPilot; ros : Ros }.

Definition M (A : Type) : Type := World -> A * World.

Definition ret {A} (a : A) : M A := fun w => (a, w).

Definition bind {A B} (c : M A) (k : A -> M B) : M B :=
  fun w => let (a, w') := c w in k a w'.

Definition exec {A} (c : M A) (w : World) : World := snd (c w).

Definition eval {A} (c : M A) (w : World) : A := fst (c w).

Notation "v <- c ;; k" := (bind c (fun v => k))
  (at level 61, c at next level, right associativity).
Notation "c ;; k" := (bind c (fun _ => k))
  (at level 61, right associativity).

(** Read a member variable. *)
Definition read {A} (field : AutoPilot -> A) : M A :=
  fun w => (field (self w), w).

(** Assign a member variable. *)
Definition assign {A} (setter : A -> AutoPilot -> AutoPilot) (v : A) : M unit :=
  fun w => (tt, {| self := setter v (self w); ros := ros w |}).

(** [if (b) { c }] *)
Definition when (b : bool) (c : M unit) : M unit :=
  if b then c else ret tt.

(** [ros::Time::now()] *)
Definition ros_Time_now : M Time :=
  fun w =>
    (wall_clock (now_calls (ros w)),
     {| self := self w;
        ros := {| now_calls := S (now_calls (ros w));
                  control_command_pub := control_command_pub (ros w);
                  rosout := rosout (ros w) |} |}).

(** [control_command_pub_.publish(msg)] *)
Definition control_command_pub_publish (msg : ControlCommand.t) : M unit :=
  fun w =>
    (tt,
     {| self := self w;
        ros := {| now_calls := now_calls (ros w);
                  control_command_pub := control_command_pub (ros w) ++ [msg];
                  rosout := rosout (ros w) |} |}).

Definition ros_log (l : LogCall) : M unit :=
  fun w =>
    (tt,
     {| self := self w;
        ros := {| now_calls := now_calls (ros w);
                  control_command_pub := control_command_pub (ros w);
                  rosout := rosout (ros w) ++ [l] |} |}).

Definition ROS_INFO (s : string) : M unit :=
  ros_log {| severity := INFO; throttle := None; text := s |}.

Definition ROS_INFO_THROTTLE (period : Q) (s : string) : M unit :=
  ros_log {| severity := INFO; throttle := Some period; text := s |}.

Definition ROS_WARN (s : string) : M unit :=
  ros_log {| severity := WARN; throttle := None; text := s |}.

Definition ROS_ERROR (s : string) : M unit :=
  ros_log {| severity := ERROR; throttle := None; text := s |}.

(** [field = f(field)], for assignments to a part of a member. *)
Definition update {A} (field : AutoPilot -> A)
    (setter : A -> AutoPilot -> AutoPilot) (f : A -> A) : M unit :=
  v <- read field ;;
  assign setter (f v).

(** *** [AutoPilot::setAutoPilotState] *)
Definition setAutoPilotState (new_state : States) : M unit :=
  now <- ros_Time_now ;;
  assign set_time_of_switch_to_current_state_ now ;;
  assign set_first_time_in_new_state_ true ;;
  when (States_beq new_state RC_MANUAL)
    (assign set_state_before_rc_manual_flight_ OFF) ;;
  assign set_autopilot_state_ new_state.

(** *** [AutoPilot::timeInCurrentState] *)
Definition timeInCurrentState : M Q :=
  now <- ros_Time_now ;;
  since <- read time_of_switch_to_current_state_ ;;
  ret (now - since).

(** *** [AutoPilot::getPredictedStateEstimate] *)
Definition getPredictedStateEstimate (time : Time) : M QuadStateEstimate.t :=
  p <- read state_predictor_ ;;
  ret (predictState p time).

(** *** [AutoPilot::publishControlCommand]

    [toRosMessage] is the identity: the message carries the fields of
    the command. *)
Definition publishControlCommand (control_cmd : ControlCommand.t) : M unit :=
  if ControlCommand.is_NONE (ControlCommand.control_mode control_cmd)
  then
    ROS_ERROR "[%s] Control mode is NONE, will not publish ControlCommand"
  else
    (control_command_pub_publish control_cmd ;;
     update state_predictor_ set_state_predictor_
       (fun p => pushCommandToQueue p control_cmd) ;;
     assign set_initial_drop_thrust_
       (ControlCommand.collective_thrust control_cmd)).

(** The first-time block shared by [start], [hover] and [land]:
    [reference_state_] is rebuilt at the position and heading of the
    estimate. *)
Definition reset_reference_state (state_estimate : QuadStateEstimate.t)
    : M unit :=
  assign set_reference_state_ TrajectoryPoint.fresh ;;
  update reference_state_ set_reference_state_
    (TrajectoryPoint.set_position
       (QuadStateEstimate.position state_estimate)) ;;
  update reference_state_ set_reference_state_
    (TrajectoryPoint.set_heading
       (quaternionToYaw (QuadStateEstimate.orientation state_estimate))).

(** The command [start] returns during the idle window. *)
Definition idle_command : ControlCommand.t :=
  ControlCommand.set_collective_thrust idle_thrust_
    (ControlCommand.set_bodyrates Vector3d_Zero
       (ControlCommand.set_armed true
          (ControlCommand.set_control_mode ControlCommand.BODY_RATES
             ControlCommand.fresh))).

(** *** [AutoPilot::start]

    The [if]/[else] of lines 316-339 yields [Some c] where the source
    returns [c] at once, and [None] where it falls through to the base
    controller. *)
Definition start (state_estimate : QuadStateEstimate.t)
    : M ControlCommand.t :=
  first <- read first_time_in_new_state_ ;;
  when first
    (assign set_first_time_in_new_state_ false ;;
     assign set_initial_start_position_
       (QuadStateEstimate.position state_estimate) ;;
     reset_reference_state state_estimate ;;
     when (Qleb optitrack_land_drop_height_
             (z (QuadStateEstimate.position state_estimate)))
       (setAutoPilotState HOVER)) ;;
  t <- timeInCurrentState ;;
  r <- read reference_state_ ;;
  early <-
    (if Qltb optitrack_start_land_timeout_ t
        || Qleb optitrack_start_height_ (z (TrajectoryPoint.position r))
     then
       (setAutoPilotState HOVER ;;
        ret None)
     else
       (t1 <- timeInCurrentState ;;
        if Qltb t1 start_idle_duration_
        then ret (Some idle_command)
        else
          (t2 <- timeInCurrentState ;;
           p0 <- read initial_start_position_ ;;
           update reference_state_ set_reference_state_
             (fun r =>
                TrajectoryPoint.set_position
                  (set_z (z p0 + start_land_velocity_
                                 * (t2 - start_idle_duration_))
                     (TrajectoryPoint.position r)) r) ;;
           update reference_state_ set_reference_state_
             (fun r =>
                TrajectoryPoint.set_velocity
                  (set_z start_land_velocity_
                     (TrajectoryPoint.velocity r)) r) ;;
           ret None))) ;;
  match early with
  | Some command => ret command
  | None =>
      r <- read reference_state_ ;;
      ret (base_controller_run state_estimate r)
  end.

(** *** [AutoPilot::hover] *)
Definition hover (state_estimate : QuadStateEstimate.t)
    : M ControlCommand.t :=
  first <- read first_time_in_new_state_ ;;
  when first
    (assign set_first_time_in_new_state_ false ;;
     reset_reference_state state_estimate) ;;
  r <- read reference_state_ ;;
  ret (base_controller_run state_estimate r).

(** *** [AutoPilot::land] *)
Definition land (state_estimate : QuadStateEstimate.t)
    : M ControlCommand.t :=
  first <- read first_time_in_new_state_ ;;
  when first
    (assign set_first_time_in_new_state_ false ;;
     assign set_initial_land_position_
       (QuadStateEstimate.position state_estimate) ;;
     reset_reference_state state_estimate ;;
     assign set_time_to_ramp_down_ false) ;;
  t <- timeInCurrentState ;;
  p0 <- read initial_land_position_ ;;
  update reference_state_ set_reference_state_
    (fun r =>
       TrajectoryPoint.set_position
         (set_z (fmax 0 (z p0 - start_land_velocity_ * t))
            (TrajectoryPoint.position r)) r) ;;
  update reference_state_ set_reference_state_
    (fun r =>
       TrajectoryPoint.set_velocity
         (set_z (- start_land_velocity_) (TrajectoryPoint.velocity r)) r) ;;
  r <- read reference_state_ ;;
  let command := base_controller_run state_estimate r in
  ramping <- read time_to_ramp_down_ ;;
  trigger <-
    (if negb ramping
     then
       (if Qltb (z (QuadStateEstimate.position state_estimate))
                optitrack_land_drop_height_
        then ret true
        else
          (t1 <- timeInCurrentState ;;
           ret (Qltb optitrack_start_land_timeout_ t1)))
     else ret false) ;;
  when trigger
    (assign set_time_to_ramp_down_ true ;;
     now <- ros_Time_now ;;
     assign set_time_started_ramping_down_ now) ;;
  ramping <- read time_to_ramp_down_ ;;
  command <-
    (if ramping
     then
       (ROS_INFO_THROTTLE 2 "[%s] Ramping propeller down" ;;
        thrust0 <- read initial_drop_thrust_ ;;
        now <- ros_Time_now ;;
        started <- read time_started_ramping_down_ ;;
        ret (ControlCommand.set_collective_thrust
               (thrust0 - thrust0 / propeller_ramp_down_timeout_
                            * (now - started))
               command))
     else ret command) ;;
  if Qleb (ControlCommand.collective_thrust command) 0
  then
    (setAutoPilotState OFF ;;
     ret (ControlCommand.zero command))
  else ret command.

(** *** [AutoPilot::stateEstimateCallback]

    [msg] is the estimate built from the odometry message. *)
Definition stateEstimateCallback (msg : QuadStateEstimate.t) : M unit :=
  assign set_state_estimate_available_ true ;;
  assign set_received_state_est_ msg ;;
  est <- read received_state_est_ ;;
  when (negb (QuadStateEstimate.isValid est))
    (assign set_state_estimate_available_ false ;;
     st <- read autopilot_state_ ;;
     when (negb (States_beq st OFF) && negb (States_beq st EMERGENCY_LAND))
       (setAutoPilotState EMERGENCY_LAND ;;
        ROS_ERROR
          "[%s] Received invalid state estimate, going to EMERGENCY_LANDING")) ;;
  est <- read received_state_est_ ;;
  update state_predictor_ set_state_predictor_
    (fun p => updateWithStateEstimate p est) ;;
  let control_cmd := ControlCommand.fresh in
  wall_time_now <- ros_Time_now ;;
  let command_execution_time := wall_time_now + control_command_delay_ in
  predicted_state <- getPredictedStateEstimate command_execution_time ;;
  st <- read autopilot_state_ ;;
  control_cmd <-
    match st with
    | OFF => ret (ControlCommand.zero control_cmd)
    | START => start predicted_state
    | HOVER => hover predicted_state
    | LAND => land predicted_state
    | EMERGENCY_LAND =>
        available <- read state_estimate_available_ ;;
        when available (setAutoPilotState HOVER) ;;
        ret control_cmd
    | BREAKING => ret control_cmd
    | GO_TO_POSE => ret control_cmd
    | VELOCITY_CONTROL => ret control_cmd
    | REFERENCE_CONTROL => ret control_cmd
    | TRAJECTORY_CONTROL => ret control_cmd
    | COMMAND_FEEDTHROUGH => ret control_cmd
    | RC_MANUAL =>
        ret (ControlCommand.set_collective_thrust (981 # 100)
               (ControlCommand.set_armed true
                  (ControlCommand.zero control_cmd)))
    end ;;
  st <- read autopilot_state_ ;;
  when (negb (States_beq st COMMAND_FEEDTHROUGH))
    (publishControlCommand
       (ControlCommand.set_expected_execution_time command_execution_time
          (ControlCommand.set_timestamp wall_time_now control_cmd))).

(** *** [AutoPilot::lowLevelFeedbackCallback]

    Modelled from the spec: the message type is declared outside this
    file; the spec reduces the message to whether it reports manual
    control, [msg->control_mode == msg->RC_MANUAL]. *)
Definition lowLevelFeedbackCallback (msg_is_RC_MANUAL : bool) : M unit :=
  st <- read autopilot_state_ ;;
  when (msg_is_RC_MANUAL && negb (States_beq st RC_MANUAL))
    (assign set_autopilot_state_ RC_MANUAL) ;;
  st <- read autopilot_state_ ;;
  when (negb msg_is_RC_MANUAL && States_beq st RC_MANUAL)
    (before <- read state_before_rc_manual_flight_ ;;
     if States_beq before OFF
     then assign set_autopilot_state_ OFF
     else assign set_autopilot_state_ BREAKING).

(** *** The four callbacks with an empty body *)
Definition poseCommandCallback : M unit := ret tt.
Definition velocityCommandCallback : M unit := ret tt.
Definition referenceStateCallback : M unit := ret tt.
Definition trajectoryCallback : M unit := ret tt.

(** *** [AutoPilot::controlCommandInputCallback] *)
Definition controlCommandInputCallback (msg : ControlCommand.t) : M unit :=
  st <- read autopilot_state_ ;;
  if negb (States_beq st OFF) && negb (States_beq st HOVER)
  then ret tt
  else
    (st <- read autopilot_state_ ;;
     when (negb (States_beq st COMMAND_FEEDTHROUGH))
       (assign set_autopilot_state_ COMMAND_FEEDTHROUGH) ;;
     control_command_pub_publish msg).

(** *** [AutoPilot::startCallback] *)
Definition startCallback : M unit :=
  ROS_INFO_THROTTLE (1 # 2) "[%s] START command received" ;;
  st <- read autopilot_state_ ;;
  if States_beq st OFF
  then
    (available <- read state_estimate_available_ ;;
     if available
     then
       (est <- read received_state_est_ ;;
        if QuadStateEstimate.is_absolute
             (QuadStateEstimate.coordinate_frame est)
        then
          (ROS_INFO
             "[%s] Absolute state estimate available, taking off based on it" ;;
           setAutoPilotState START)
        else
          when (QuadStateEstimate.is_relative
                  (QuadStateEstimate.coordinate_frame est))
            (ROS_INFO
               "[%s] Relative state estimate available, switch to hover" ;;
             setAutoPilotState HOVER))
     else
       ROS_ERROR "[%s] No state estimate available, will not start")
  else
    ROS_WARN "[%s] Autopilot is not OFF, will not switch to START".

(** *** [AutoPilot::landCallback] *)
Definition landCallback : M unit :=
  ROS_INFO_THROTTLE (1 # 2) "[%s] LAND command received" ;;
  st <- read autopilot_state_ ;;
  if States_beq st OFF || States_beq st LAND
     || States_beq st EMERGENCY_LAND || States_beq st COMMAND_FEEDTHROUGH
     || States_beq st RC_MANUAL
  then ret tt
  else
    (available <- read state_estimate_available_ ;;
     if available
     then
       (est <- read received_state_est_ ;;
        if QuadStateEstimate.is_absolute
             (QuadStateEstimate.coordinate_frame est)
        then
          (ROS_INFO
             "[%s] Absolute state estimate available, landing based on it" ;;
           setAutoPilotState LAND)
        else
          (ROS_INFO
             "[%s] No absolute state estimate available, EMERGENCY_LAND instead" ;;
           setAutoPilotState EMERGENCY_LAND))
     else setAutoPilotState EMERGENCY_LAND).

(** *** [AutoPilot::offCallback] *)
Definition offCallback : M unit :=
  st <- read autopilot_state_ ;;
  when (negb (States_beq st OFF))
    (ROS_INFO "[%s] OFF command received" ;;
     setAutoPilotState OFF ;;
     assign set_state_before_rc_manual_flight_ OFF).

(** *** [AutoPilot::AutoPilot]

    The initializer list, for a node whose parameters load. The three
    members it leaves out and that have no default value are whatever
    the memory holds. *)
Definition AutoPilot_new (initial_start_position initial_land_position
    : Vector3d) (initial_drop_thrust : Q) : AutoPilot := {|
  autopilot_state_ := OFF;
  state_before_rc_manual_flight_ := OFF;
  state_predictor_ := StatePredictor_new;
  reference_state_ := TrajectoryPoint.fresh;
  received_state_est_ := QuadStateEstimate.empty;
  state_estimate_available_ := false;
  time_of_switch_to_current_state_ := 0;
  first_time_in_new_state_ := true;
  initial_start_position_ := initial_start_position;
  initial_land_position_ := initial_land_position;
  time_to_ramp_down_ := false;
  time_started_ramping_down_ := 0;
  initial_drop_thrust_ := initial_drop_thrust
|}.

Definition World_new (p1 p2 : Vector3d) (f : Q) : World :=
  {| self := AutoPilot_new p1 p2 f; ros := Ros_start |}.

(** *** The messages the node subscribes to, and their dispatch *)
Inductive Event : Type :=
| state_estimate (msg : QuadStateEstimate.t)
| low_level_feedback (msg_is_RC_MANUAL : bool)
| pose_command
| velocity_command
| reference_state
| trajectory
| control_command_input (msg : ControlCommand.t)
| start_request
| land_request
| off_request.

Definition spin (e : Event) : M unit :=
  match e with
  | state_estimate msg => stateEstimateCallback msg
  | low_level_feedback b => lowLevelFeedbackCallback b
  | pose_command => poseCommandCallback
  | velocity_command => velocityCommandCallback
  | reference_state => referenceStateCallback
  | trajectory => trajectoryCallback
  | control_command_input msg => controlCommandInputCallback msg
  | start_request => startCallback
  | land_request => landCallback
  | off_request => offCallback
  end.

(** The callbacks run one after the other, each to completion. *)
Fixpoint spin_all (es : list Event) (w : World) : World :=
  match es with
  | [] => w
  | e :: es' => spin_all es' (exec (spin e) w)
  end.

(** The states of the node: those it is constructed in and those a
    callback leaves it in. *)
Inductive reachable : World -> Prop :=
| reachable_new : forall p1 p2 f, reachable (World_new p1 p2 f)
| reachable_spin : forall w e,
    reachable w -> reachable (exec (spin e) w).

(** Consecutive ticks for as long as the node is in mode [m] when the
    estimate arrives. *)
Fixpoint ticks_in (m : States) (msgs : list QuadStateEstimate.t)
    (w : World) : World :=
  match msgs with
  | [] => w
  | msg :: msgs' =>
      if States_beq (autopilot_state_ (self w)) m
      then ticks_in m msgs' (exec (stateEstimateCallback msg) w)
      else w
  end.

(** The invariant behind the mode remembered for the end of manual
    flight: it is OFF, and the node is not in BREAKING. *)
Definition before_manual_is_off (w : World) : Prop :=
  state_before_rc_manual_flight_ (self w) = OFF
  /\ autopilot_state_ (self w) <> BREAKING.

(** The node is ramping the propellers down: it is in LAND, past its
    first tick there, the latch is set, the time it was set at is not in
    the future, and [prev], the thrust last published, is positive. *)
Definition ramping_down (prev : Q) (w : World) : Prop :=
  autopilot_state_ (self w) = LAND
  /\ time_to_ramp_down_ (self w) = true
  /\ first_time_in_new_state_ (self w) = false
  /\ initial_drop_thrust_ (self w) = prev
  /\ 0 < prev
  /\ time_started_ramping_down_ (self w) <= wall_clock (now_calls (ros w)).

End AutoPilot.

(** The thrusts of a run of commands, and what it is for thrust never to
    rise from one command to the next. *)
Definition thrusts (cs : list ControlCommand.t) : list Q :=
  map ControlCommand.collective_thrust cs.

Definition never_rises (l : list Q) : Prop :=
  Sorted (fun a b => b <= a) l.

(** The ramp as the specification words it: from [thrust0] down to zero
    over [timeout], [t] after it began. *)
Definition linear_ramp (thrust0 timeout t : Q) : Q :=
  thrust0 * (1 - t / timeout).

(* ================================================================== *)
(** ** A test bench

    A concrete node for running the callbacks: the predictor returns the
    last estimate it was given, the base controller asks for hover thrust
    in body-rates mode, the clock advances by a tenth of a second per
    reading, and the ramp-down lasts one second. *)
Module Bench.

Definition hover_thrust_command : ControlCommand.t :=
  ControlCommand.set_collective_thrust (981 # 100)
    (ControlCommand.set_armed true
       (ControlCommand.set_control_mode ControlCommand.BODY_RATES
          ControlCommand.fresh)).

Definition env : Env := {|
  StatePredictor := QuadStateEstimate.t;
  updateWithStateEstimate := fun _ est => est;
  pushCommandToQueue := fun p _ => p;
  predictState := fun p _ => p;
  StatePredictor_new := QuadStateEstimate.empty;
  base_controller_run := fun _ _ => hover_thrust_command;
  quaternionToYaw := fun q => qz q;
  wall_clock := fun n => inject_Z (Z.of_nat n) / 10;
  control_command_delay_ := 1 # 20;
  optitrack_land_drop_height_ := 3 # 10;
  optitrack_start_land_timeout_ := 10;
  optitrack_start_height_ := 1;
  start_idle_duration_ := 2;
  idle_thrust_ := 2;
  start_land_velocity_ := 1 # 2;
  propeller_ramp_down_timeout_ := 1
|}.

(** An estimate at height [h] in frame [f]. *)
Definition estimate_at (h : Q) (f : QuadStateEstimate.CoordinateFrame)
    (valid : bool) : QuadStateEstimate.t := {|
  QuadStateEstimate.position := {| x := 0; y := 0; z := h |};
  QuadStateEstimate.orientation := Quaterniond_Identity;
  QuadStateEstimate.velocity := Vector3d_Zero;
  QuadStateEstimate.isValid := valid;
  QuadStateEstimate.coordinate_frame := f
|}.

Definition on_ground : QuadStateEstimate.t :=
  estimate_at (1 # 10) QuadStateEstimate.WORLD true.

Definition on_ground_vision : QuadStateEstimate.t :=
  estimate_at (1 # 10) QuadStateEstimate.VISION true.

Definition on_ground_unknown : QuadStateEstimate.t :=
  estimate_at (1 # 10) QuadStateEstimate.UNKNOWN true.

Definition lost : QuadStateEstimate.t :=
  estimate_at 0 QuadStateEstimate.UNKNOWN false.

Definition new : World (E := env) :=
  World_new (E := env) Vector3d_Zero Vector3d_Zero 0.

Definition run (es : list Event) : World (E := env) :=
  spin_all (E := env) es new.

(** Take-off from the ground, then a land request during the idle
    window, then [n] ticks of landing. *)
Definition landing (n : nat) : list Event :=
  [state_estimate on_ground; start_request; state_estimate on_ground;
   land_request] ++ repeat (state_estimate on_ground) n.

End Bench.

(* ================================================================== *)
(** ** Proofs *)

(** *** Comparisons *)

Lemma Qleb_spec (a b : Q) : BoolSpec (a <= b) (b < a) (Qleb a b).
Proof.
  unfold Qleb. destruct (Qle_bool a b) eqn:H; constructor.
  - now apply Qle_bool_iff.
  - apply Qnot_le_lt. intros Hle. apply Qle_bool_iff in Hle. congruence.
Qed.

Lemma Qltb_spec (a b : Q) : BoolSpec (a < b) (b <= a) (Qltb a b).
Proof.
  unfold Qltb. destruct (Qle_bool b a) eqn:H; constructor.
  - now apply Qle_bool_iff.
  - apply Qnot_le_lt. intros Hle. apply Qle_bool_iff in Hle. congruence.
Qed.

(** *** Running a callback *)

(** Unfold the callbacks down to the state they compute. *)
Ltac callbacks :=
  unfold exec, eval, spin, stateEstimateCallback, lowLevelFeedbackCallback,
    controlCommandInputCallback, startCallback, landCallback, offCallback,
    poseCommandCallback, velocityCommandCallback, referenceStateCallback,
    trajectoryCallback, start, hover, land, publishControlCommand,
    reset_reference_state, getPredictedStateEstimate, timeInCurrentState,
    setAutoPilotState, ROS_INFO, ROS_INFO_THROTTLE, ROS_WARN, ROS_ERROR,
    ros_log, control_command_pub_publish, ros_Time_now, update, when,
    assign, read, bind, ret.

(** The same through the virtual machine: the goal is replaced by what
    the callbacks compute, and the two are compared by evaluation. *)
Ltac run :=
  match goal with
  | |- ?G =>
      let G1 := eval unfold exec, eval, spin, stateEstimateCallback,
        lowLevelFeedbackCallback, controlCommandInputCallback, startCallback,
        landCallback, offCallback, poseCommandCallback,
        velocityCommandCallback, referenceStateCallback, trajectoryCallback,
        start, hover, land, publishControlCommand, reset_reference_state,
        getPredictedStateEstimate, timeInCurrentState, setAutoPilotState,
        ROS_INFO, ROS_INFO_THROTTLE, ROS_WARN, ROS_ERROR, ros_log,
        control_command_pub_publish, ros_Time_now, update, when, assign,
        read, bind, ret in G in
      let G' := eval cbn in G1 in
      let H := fresh in
      cut G'; [ intro H; vm_cast_no_check H | ]
  end.

(** Take a world apart into its member variables. *)
Ltac open_world w :=
  let a := fresh "a" in
  let r := fresh "r" in
  destruct w as [a r]; destruct a; destruct r; cbn in *.

(** Decide the next test the computation is stuck on. *)
Ltac branch :=
  match goal with
  | |- context [if ?b then _ else _] => destruct b eqn:?; cbn in *
  | |- context [match ?b with Some _ => _ | None => _ end] =>
      destruct b eqn:?; cbn in *
  end.

(** Decide the next test and run on. *)
Ltac branch_run :=
  match goal with
  | |- context [if ?b then _ else _] => destruct b eqn:?; run
  | |- context [match ?b with Some _ => _ | None => _ end] =>
      destruct b eqn:?; run
  end.

(** Make the estimate of a tick a record with its validity known. *)
Ltac open_estimate msg H :=
  destruct msg; cbn in H; subst.

(* ------------------------------------------------------------------ *)
(** *** Invalid estimates (C5) *)

(** C5. A tick whose estimate fails validity leaves the node in
    EMERGENCY_LAND when it was in any mode but OFF and EMERGENCY_LAND (the
    recovery to HOVER of the EMERGENCY_LAND case is not taken in that
    tick), and leaves the mode as it was when it was OFF or
    EMERGENCY_LAND. *)
Theorem invalid_estimate_ends_in_emergency_land
    (E : Env) (w : World) (msg : QuadStateEstimate.t) :
  QuadStateEstimate.isValid msg = false ->
  let w' := exec (stateEstimateCallback msg) w in
  (autopilot_state_ (self w) <> OFF ->
   autopilot_state_ (self w) <> EMERGENCY_LAND ->
   autopilot_state_ (self w') = EMERGENCY_LAND)
  /\ (autopilot_state_ (self w) = OFF \/
      autopilot_state_ (self w) = EMERGENCY_LAND ->
      autopilot_state_ (self w') = autopilot_state_ (self w)).
Proof.
  intros Hv. open_world w. callbacks. cbn. rewrite Hv. cbn.
  destruct autopilot_state_0; cbn; split; intros; try reflexivity;
    try congruence; intuition congruence.
Qed.

Lemma invalid_estimate_ends_in_emergency_land_witness :
  autopilot_state_
    (self (exec (E := Bench.env) (stateEstimateCallback Bench.lost)
             (Bench.run [state_estimate Bench.on_ground_vision;
                         start_request])))
  = EMERGENCY_LAND.
Proof.
  apply (invalid_estimate_ends_in_emergency_land Bench.env
           (Bench.run [state_estimate Bench.on_ground_vision; start_request])
           Bench.lost);
    [ reflexivity | vm_compute; discriminate | vm_compute; discriminate ].
Defined.

(* ------------------------------------------------------------------ *)
(** *** The start request (C6, C10) *)

(** What [startCallback] does to the mode, as one table. *)
Lemma startCallback_mode (E : Env) (w : World) :
  autopilot_state_ (self (exec startCallback w)) =
  match autopilot_state_ (self w) with
  | OFF =>
      if state_estimate_available_ (self w)
      then
        match QuadStateEstimate.coordinate_frame (received_state_est_ (self w)) with
        | QuadStateEstimate.WORLD | QuadStateEstimate.OPTITRACK => START
        | QuadStateEstimate.VISION | QuadStateEstimate.LOCAL => HOVER
        | QuadStateEstimate.UNKNOWN => OFF
        end
      else OFF
  | m => m
  end.
Proof.
  open_world w. callbacks. cbn.
  destruct autopilot_state_0; cbn; try reflexivity.
  destruct state_estimate_available_0; cbn; try reflexivity.
  destruct (QuadStateEstimate.coordinate_frame received_state_est_0);
    reflexivity.
Qed.

(** C6. The start request leaves the mode as it is when the node is
    not OFF or has no valid estimate available; from OFF with a valid
    estimate in frame WORLD or OPTITRACK it switches to START, and with one
    in frame VISION or LOCAL it switches to HOVER. *)
Theorem start_request_modes (E : Env) (w : World) :
  let w' := exec startCallback w in
  let frame := QuadStateEstimate.coordinate_frame (received_state_est_ (self w)) in
  (autopilot_state_ (self w) <> OFF \/ state_estimate_available_ (self w) = false ->
   autopilot_state_ (self w') = autopilot_state_ (self w))
  /\ (autopilot_state_ (self w) = OFF ->
      state_estimate_available_ (self w) = true ->
      frame = QuadStateEstimate.WORLD \/ frame = QuadStateEstimate.OPTITRACK ->
      autopilot_state_ (self w') = START)
  /\ (autopilot_state_ (self w) = OFF ->
      state_estimate_available_ (self w) = true ->
      frame = QuadStateEstimate.VISION \/ frame = QuadStateEstimate.LOCAL ->
      autopilot_state_ (self w') = HOVER).
Proof.
  cbv zeta. rewrite startCallback_mode. repeat split.
  - intros [Hm | Ha].
    + destruct (autopilot_state_ (self w)); congruence.
    + rewrite Ha. destruct (autopilot_state_ (self w)); reflexivity.
  - intros -> -> [-> | ->]; reflexivity.
  - intros -> -> [-> | ->]; reflexivity.
Qed.

Lemma start_request_modes_witness :
  autopilot_state_
    (self (exec (E := Bench.env) startCallback
             (Bench.run [state_estimate Bench.on_ground])))
  = START
  /\ autopilot_state_
       (self (exec (E := Bench.env) startCallback
                (Bench.run [state_estimate Bench.on_ground_vision])))
     = HOVER
  /\ autopilot_state_ (self (exec (E := Bench.env) startCallback Bench.new))
     = autopilot_state_ (self Bench.new).
Proof.
  split; [| split].
  - apply (proj1 (proj2 (start_request_modes Bench.env
                           (Bench.run [state_estimate Bench.on_ground]))));
      [ reflexivity | reflexivity | left; reflexivity ].
  - apply (proj2 (proj2 (start_request_modes Bench.env
                           (Bench.run [state_estimate Bench.on_ground_vision]))));
      [ reflexivity | reflexivity | left; reflexivity ].
  - apply (proj1 (start_request_modes Bench.env Bench.new)).
    right. reflexivity.
Defined.

(** C10. A start request in mode OFF with a valid estimate available
    whose frame is none of WORLD, OPTITRACK, VISION, LOCAL changes no member
    variable, reads no clock and publishes nothing, and the only logging
    statement it executes is the notice that a start request came in:
    neither the warning of the not-OFF rejection nor the error of the
    missing-estimate rejection. Those two rejections do log. *)
Theorem start_request_unknown_frame_is_silent (E : Env) (w : World) :
  let w' := exec startCallback w in
  (autopilot_state_ (self w) = OFF ->
   state_estimate_available_ (self w) = true ->
   QuadStateEstimate.coordinate_frame (received_state_est_ (self w))
     = QuadStateEstimate.UNKNOWN ->
   self w' = self w
   /\ now_calls (ros w') = now_calls (ros w)
   /\ control_command_pub (ros w') = control_command_pub (ros w)
   /\ rosout (ros w') = rosout (ros w) ++
        [{| severity := INFO; throttle := Some (1 # 2);
               text := "[%s] START command received" |}])
  /\ (autopilot_state_ (self w) = OFF ->
      state_estimate_available_ (self w) = false ->
      self w' = self w
      /\ rosout (ros w') =
         rosout (ros w) ++
           [{| severity := INFO; throttle := Some (1 # 2);
               text := "[%s] START command received" |};
            {| severity := ERROR; throttle := None;
               text := "[%s] No state estimate available, will not start" |}])
  /\ (autopilot_state_ (self w) <> OFF ->
      self w' = self w
      /\ rosout (ros w') =
         rosout (ros w) ++
           [{| severity := INFO; throttle := Some (1 # 2);
               text := "[%s] START command received" |};
            {| severity := WARN; throttle := None;
               text := "[%s] Autopilot is not OFF, will not switch to START" |}]).
Proof.
  open_world w. callbacks. cbn. split; [| split].
  - intros -> -> Hf. cbn. rewrite Hf. cbn. repeat split; reflexivity.
  - intros -> ->. cbn. rewrite <- app_assoc. split; reflexivity.
  - intros Hm. destruct autopilot_state_0; try congruence; cbn;
      rewrite <- app_assoc; split; reflexivity.
Qed.

Lemma start_request_unknown_frame_is_silent_witness :
  let w := Bench.run [state_estimate Bench.on_ground_unknown] in
  let w' := exec (E := Bench.env) startCallback w in
  self w' = self w
  /\ now_calls (ros w') = now_calls (ros w)
  /\ control_command_pub (ros w') = control_command_pub (ros w)
  /\ rosout (ros w') = rosout (ros w) ++
        [{| severity := INFO; throttle := Some (1 # 2);
               text := "[%s] START command received" |}].
Proof.
  apply (proj1 (start_request_unknown_frame_is_silent Bench.env
                  (Bench.run [state_estimate Bench.on_ground_unknown])));
    reflexivity.
Defined.

(* ------------------------------------------------------------------ *)
(** *** The land request (C7) *)

(** C7. The land request changes no member variable in the modes OFF,
    LAND, EMERGENCY_LAND, COMMAND_FEEDTHROUGH and RC_MANUAL. In every other
    mode it switches to LAND when a valid estimate in frame WORLD or
    OPTITRACK is available, to EMERGENCY_LAND when a valid estimate in
    another frame is available, and to EMERGENCY_LAND when none is
    available. *)
Theorem land_request_modes (E : Env) (w : World) :
  let w' := exec landCallback w in
  let m := autopilot_state_ (self w) in
  let frame := QuadStateEstimate.coordinate_frame (received_state_est_ (self w)) in
  let ignored :=
    m = OFF \/ m = LAND \/ m = EMERGENCY_LAND \/ m = COMMAND_FEEDTHROUGH
    \/ m = RC_MANUAL in
  (ignored -> self w' = self w)
  /\ (~ ignored ->
      state_estimate_available_ (self w) = true ->
      frame = QuadStateEstimate.WORLD \/ frame = QuadStateEstimate.OPTITRACK ->
      autopilot_state_ (self w') = LAND)
  /\ (~ ignored ->
      state_estimate_available_ (self w) = true ->
      frame <> QuadStateEstimate.WORLD ->
      frame <> QuadStateEstimate.OPTITRACK ->
      autopilot_state_ (self w') = EMERGENCY_LAND)
  /\ (~ ignored ->
      state_estimate_available_ (self w) = false ->
      autopilot_state_ (self w') = EMERGENCY_LAND).
Proof.
  open_world w. callbacks. cbn. repeat split.
  - intros Hm. destruct autopilot_state_0; try reflexivity;
      intuition discriminate.
  - intros Hm -> Hf.
    destruct autopilot_state_0; try (exfalso; tauto); cbn;
      destruct Hf as [-> | ->]; reflexivity.
  - intros Hm -> Hw Ho.
    destruct autopilot_state_0; try (exfalso; tauto); cbn;
      destruct (QuadStateEstimate.coordinate_frame received_state_est_0);
      try congruence; reflexivity.
  - intros Hm ->.
    destruct autopilot_state_0; try (exfalso; tauto); reflexivity.
Qed.

Lemma land_request_modes_witness :
  autopilot_state_
    (self (exec (E := Bench.env) landCallback
             (Bench.run [state_estimate Bench.on_ground; start_request])))
  = LAND
  /\ autopilot_state_
       (self (exec (E := Bench.env) landCallback
                (Bench.run [state_estimate Bench.on_ground_vision;
                            start_request])))
     = EMERGENCY_LAND
  /\ self (exec (E := Bench.env) landCallback Bench.new) = self Bench.new.
Proof.
  split; [| split].
  - apply (proj1 (proj2 (land_request_modes Bench.env
             (Bench.run [state_estimate Bench.on_ground; start_request]))));
      [ vm_compute; intuition discriminate | reflexivity | left; reflexivity ].
  - apply (proj1 (proj2 (proj2 (land_request_modes Bench.env
             (Bench.run [state_estimate Bench.on_ground_vision;
                         start_request])))));
      [ vm_compute; intuition discriminate | reflexivity
      | vm_compute; discriminate | vm_compute; discriminate ].
  - apply (proj1 (land_request_modes Bench.env Bench.new)). left. reflexivity.
Defined.

(* ------------------------------------------------------------------ *)
(** *** External commands (C1) *)

(** What [controlCommandInputCallback] does, as one table: in OFF and in
    HOVER the mode becomes COMMAND_FEEDTHROUGH and the message is sent as
    it is; in every other mode, COMMAND_FEEDTHROUGH included, nothing
    happens. *)
Lemma controlCommandInputCallback_table (E : Env) (w : World)
    (msg : ControlCommand.t) :
  exec (controlCommandInputCallback msg) w =
  match autopilot_state_ (self w) with
  | OFF | HOVER =>
      {| self := set_autopilot_state_ COMMAND_FEEDTHROUGH (self w);
         ros := {| now_calls := now_calls (ros w);
                   control_command_pub := control_command_pub (ros w) ++ [msg];
                   rosout := rosout (ros w) |} |}
  | _ => w
  end.
Proof.
  open_world w. callbacks. cbn.
  destruct autopilot_state_0; reflexivity.
Qed.

(** C1, on the code: the first external command after start-up is
    accepted (the mode becomes COMMAND_FEEDTHROUGH and the command is the
    one message sent), and the next external command, arriving in
    COMMAND_FEEDTHROUGH, is rejected: it changes nothing and is not sent. *)
Theorem external_command_in_feedthrough_is_dropped (E : Env)
    (p1 p2 : Vector3d) (f : Q) (cmd1 cmd2 : ControlCommand.t) :
  let w1 := exec (controlCommandInputCallback cmd1) (World_new p1 p2 f) in
  let w2 := exec (controlCommandInputCallback cmd2) w1 in
  autopilot_state_ (self w1) = COMMAND_FEEDTHROUGH
  /\ control_command_pub (ros w1) = [cmd1]
  /\ w2 = w1.
Proof.
  cbv zeta. rewrite !controlCommandInputCallback_table. cbn.
  repeat split.
Qed.

(* ------------------------------------------------------------------ *)
(** *** Mode switches and their reset (C2) *)

(** Every call of [setAutoPilotState] sets the latch and stamps the
    switch with the clock reading it makes. *)
Lemma setAutoPilotState_resets (E : Env) (w : World) (m : States) :
  let w' := exec (setAutoPilotState m) w in
  autopilot_state_ (self w') = m
  /\ first_time_in_new_state_ (self w') = true
  /\ time_of_switch_to_current_state_ (self w')
     = wall_clock (now_calls (ros w)).
Proof.
  open_world w. callbacks. cbn.
  destruct (States_beq m RC_MANUAL); cbn; repeat split.
Qed.

Lemma reachable_spin_all (E : Env) (es : list Event) (w : World) :
  reachable w -> reachable (spin_all es w).
Proof.
  revert w. induction es as [| e es IH]; intros w Hw; cbn.
  - exact Hw.
  - apply IH. now apply reachable_spin.
Qed.

(** C2, on the code: [lowLevelFeedbackCallback] and
    [controlCommandInputCallback] write the mode themselves. From HOVER
    after its first tick, a feedback message reporting manual control
    switches to RC_MANUAL and an external command switches to
    COMMAND_FEEDTHROUGH, and in both cases the latch stays false, the time
    of the switch stays what it was and the clock is not read. *)
Theorem mode_written_without_reset (E : Env) (w : World)
    (msg : ControlCommand.t) :
  autopilot_state_ (self w) = HOVER ->
  first_time_in_new_state_ (self w) = false ->
  let w1 := exec (lowLevelFeedbackCallback true) w in
  let w2 := exec (controlCommandInputCallback msg) w in
  (autopilot_state_ (self w1) = RC_MANUAL
   /\ first_time_in_new_state_ (self w1) = false
   /\ time_of_switch_to_current_state_ (self w1)
      = time_of_switch_to_current_state_ (self w)
   /\ now_calls (ros w1) = now_calls (ros w))
  /\ (autopilot_state_ (self w2) = COMMAND_FEEDTHROUGH
      /\ first_time_in_new_state_ (self w2) = false
      /\ time_of_switch_to_current_state_ (self w2)
         = time_of_switch_to_current_state_ (self w)
      /\ now_calls (ros w2) = now_calls (ros w)).
Proof.
  open_world w. intros -> ->. callbacks. cbn. repeat split.
Qed.

Lemma mode_written_without_reset_witness :
  let w := Bench.run [state_estimate Bench.on_ground_vision; start_request;
                      state_estimate Bench.on_ground_vision] in
  let w1 := exec (E := Bench.env) (lowLevelFeedbackCallback true) w in
  reachable w
  /\ autopilot_state_ (self w) = HOVER
  /\ autopilot_state_ (self w1) = RC_MANUAL
  /\ first_time_in_new_state_ (self w1) = false
  /\ time_of_switch_to_current_state_ (self w1)
     = time_of_switch_to_current_state_ (self w).
Proof.
  cbv zeta.
  assert (Hm : autopilot_state_
                 (self (Bench.run [state_estimate Bench.on_ground_vision;
                                   start_request;
                                   state_estimate Bench.on_ground_vision]))
               = HOVER) by (vm_compute; reflexivity).
  assert (Hl : first_time_in_new_state_
                 (self (Bench.run [state_estimate Bench.on_ground_vision;
                                   start_request;
                                   state_estimate Bench.on_ground_vision]))
               = false) by (vm_compute; reflexivity).
  split; [| split].
  - apply reachable_spin_all. apply reachable_new.
  - exact Hm.
  - pose proof (mode_written_without_reset Bench.env _ ControlCommand.fresh
                  Hm Hl) as H.
    cbv zeta in H. destruct H as [(H1 & H2 & H3 & _) _].
    split; [exact H1 | split; [exact H2 | exact H3]].
Defined.
(** *** The mode remembered for the end of manual flight (C9) *)

Lemma spin_keeps_before_manual_off (E : Env) (e : Event) (w : World) :
  before_manual_is_off w -> before_manual_is_off (exec (spin e) w).
Proof.
  unfold before_manual_is_off. open_world w. intros [-> Hm].
  destruct e; callbacks; cbn.
  - destruct autopilot_state_0; try congruence; cbn;
      repeat branch; split; (reflexivity || discriminate).
  - destruct msg_is_RC_MANUAL, autopilot_state_0; try congruence; cbn;
      split; (reflexivity || discriminate).
  - split; [reflexivity | assumption].
  - split; [reflexivity | assumption].
  - split; [reflexivity | assumption].
  - split; [reflexivity | assumption].
  - destruct autopilot_state_0; try congruence; cbn;
      split; (reflexivity || discriminate).
  - destruct autopilot_state_0; try congruence; cbn;
      repeat branch; split; (reflexivity || discriminate).
  - destruct autopilot_state_0; try congruence; cbn;
      repeat branch; split; (reflexivity || discriminate).
  - destruct autopilot_state_0; try congruence; cbn;
      split; (reflexivity || discriminate).
Qed.

Lemma reachable_before_manual_off (E : Env) (w : World) :
  reachable w -> before_manual_is_off w.
Proof.
  induction 1 as [p1 p2 f | w e _ IH].
  - split; [reflexivity | discriminate].
  - now apply spin_keeps_before_manual_off.
Qed.

(** C9. In every reachable state the mode remembered for the end of
    manual flight is OFF. So when the node is in RC_MANUAL and the feedback
    no longer reports manual control, the mode becomes OFF; and whatever
    the feedback reports, the handler does not leave the node in BREAKING:
    its BREAKING branch is not taken. *)
Theorem state_before_rc_manual_flight_is_always_off (E : Env) (w : World) :
  reachable w ->
  state_before_rc_manual_flight_ (self w) = OFF
  /\ (autopilot_state_ (self w) = RC_MANUAL ->
      autopilot_state_ (self (exec (lowLevelFeedbackCallback false) w)) = OFF)
  /\ (forall b : bool,
        autopilot_state_ (self (exec (lowLevelFeedbackCallback b) w))
        <> BREAKING).
Proof.
  intros Hr. pose proof (reachable_before_manual_off E w Hr) as [Hb Hm].
  split; [exact Hb |]. split.
  - revert Hb. open_world w. intros -> ->. reflexivity.
  - intros b.
    pose proof (spin_keeps_before_manual_off E (low_level_feedback b) w
                  (conj Hb Hm)) as [_ H].
    exact H.
Qed.

Lemma state_before_rc_manual_flight_is_always_off_witness :
  let w := Bench.run [state_estimate Bench.on_ground; start_request;
                      low_level_feedback true] in
  autopilot_state_ (self w) = RC_MANUAL
  /\ state_before_rc_manual_flight_ (self w) = OFF
  /\ autopilot_state_
       (self (exec (E := Bench.env) (lowLevelFeedbackCallback false) w))
     = OFF.
Proof.
  cbv zeta. split; [reflexivity |].
  pose proof (state_before_rc_manual_flight_is_always_off Bench.env
                (Bench.run [state_estimate Bench.on_ground; start_request;
                            low_level_feedback true])
                (reachable_spin_all Bench.env _ _ (reachable_new _ _ _)))
    as (Hb & Hf & _).
  split; [exact Hb | apply Hf; reflexivity].
Defined.

(* ------------------------------------------------------------------ *)
(** *** Hover holds its reference (C8) *)

(** A HOVER tick after the first one, on a valid estimate, changes
    neither the reference state nor the mode nor the latch. *)
Lemma hover_tick_keeps_reference (E : Env) (w : World)
    (msg : QuadStateEstimate.t) :
  autopilot_state_ (self w) = HOVER ->
  first_time_in_new_state_ (self w) = false ->
  QuadStateEstimate.isValid msg = true ->
  let w' := exec (stateEstimateCallback msg) w in
  reference_state_ (self w') = reference_state_ (self w)
  /\ autopilot_state_ (self w') = HOVER
  /\ first_time_in_new_state_ (self w') = false.
Proof.
  open_world w. intros -> -> Hv. open_estimate msg Hv. run.
  branch_run; repeat split.
Qed.

Lemma hover_ticks_keep_reference (E : Env)
    (msgs : list QuadStateEstimate.t) (w : World) :
  autopilot_state_ (self w) = HOVER ->
  first_time_in_new_state_ (self w) = false ->
  Forall (fun m => QuadStateEstimate.isValid m = true) msgs ->
  let w' := spin_all (map state_estimate msgs) w in
  reference_state_ (self w') = reference_state_ (self w)
  /\ autopilot_state_ (self w') = HOVER.
Proof.
  revert w. induction msgs as [| msg msgs IH]; intros w Hm Hl Hv; cbn.
  - split; [reflexivity | exact Hm].
  - inversion Hv as [| m ms Hmsg Hrest]; subst.
    destruct (hover_tick_keeps_reference E w msg Hm Hl Hmsg)
      as (Hr & Hm' & Hl').
    destruct (IH _ Hm' Hl' Hrest) as [Hr' Hm''].
    cbn in Hr', Hm''. split; [| exact Hm''].
    rewrite Hr'. exact Hr.
Qed.

(** The first HOVER tick on a valid estimate rebuilds the reference
    state at the estimate the tick works on and clears the latch. *)
Lemma hover_first_tick (E : Env) (w : World) (msg : QuadStateEstimate.t) :
  autopilot_state_ (self w) = HOVER ->
  first_time_in_new_state_ (self w) = true ->
  QuadStateEstimate.isValid msg = true ->
  reference_state_ (self (exec (stateEstimateCallback msg) w)) =
    {| TrajectoryPoint.position :=
         QuadStateEstimate.position
           (predictState
              (updateWithStateEstimate (state_predictor_ (self w)) msg)
              (wall_clock (now_calls (ros w)) + control_command_delay_));
       TrajectoryPoint.velocity := Vector3d_Zero;
       TrajectoryPoint.heading :=
         quaternionToYaw
           (QuadStateEstimate.orientation
              (predictState
                 (updateWithStateEstimate (state_predictor_ (self w)) msg)
                 (wall_clock (now_calls (ros w)) + control_command_delay_))) |}
  /\ autopilot_state_ (self (exec (stateEstimateCallback msg) w)) = HOVER
  /\ first_time_in_new_state_ (self (exec (stateEstimateCallback msg) w))
     = false.
Proof.
  open_world w. intros -> -> Hv. open_estimate msg Hv. run.
  branch_run; repeat split.
Qed.

(** C8. On the first HOVER tick the reference state is rebuilt at the
    position and heading of the estimate the tick works on (the predictor's
    estimate for the time the command takes effect), with zero velocity;
    every later HOVER tick on a valid estimate leaves the whole reference
    state, position and heading included, as that first tick set it, and
    the node stays in HOVER. *)
Theorem hover_holds_reference (E : Env) (w : World)
    (msg : QuadStateEstimate.t) (msgs : list QuadStateEstimate.t) :
  autopilot_state_ (self w) = HOVER ->
  first_time_in_new_state_ (self w) = true ->
  QuadStateEstimate.isValid msg = true ->
  Forall (fun m => QuadStateEstimate.isValid m = true) msgs ->
  let predicted :=
    predictState (updateWithStateEstimate (state_predictor_ (self w)) msg)
      (wall_clock (now_calls (ros w)) + control_command_delay_) in
  let w1 := exec (stateEstimateCallback msg) w in
  let wn := spin_all (map state_estimate msgs) w1 in
  reference_state_ (self w1) =
    {| TrajectoryPoint.position := QuadStateEstimate.position predicted;
       TrajectoryPoint.velocity := Vector3d_Zero;
       TrajectoryPoint.heading :=
         quaternionToYaw (QuadStateEstimate.orientation predicted) |}
  /\ autopilot_state_ (self wn) = HOVER
  /\ reference_state_ (self wn) = reference_state_ (self w1).
Proof.
  intros Hm Hl Hv Hvs. cbv zeta.
  destruct (hover_first_tick E w msg Hm Hl Hv) as (Hr & Hm1 & Hl1).
  destruct (hover_ticks_keep_reference E msgs _ Hm1 Hl1 Hvs) as [Hr' Hm'].
  split; [exact Hr |]. split; [exact Hm' | exact Hr'].
Qed.

Lemma hover_holds_reference_witness :
  let w := Bench.run [state_estimate Bench.on_ground_vision; start_request] in
  let w1 := exec (E := Bench.env)
              (stateEstimateCallback (Bench.estimate_at 1 QuadStateEstimate.VISION true))
              w in
  let wn := spin_all (E := Bench.env)
              (map state_estimate
                 [Bench.estimate_at 2 QuadStateEstimate.VISION true;
                  Bench.estimate_at 3 QuadStateEstimate.VISION true])
              w1 in
  autopilot_state_ (self wn) = HOVER
  /\ reference_state_ (self wn) = reference_state_ (self w1).
Proof.
  cbv zeta.
  assert (Hm : autopilot_state_
                 (self (Bench.run [state_estimate Bench.on_ground_vision;
                                   start_request]))
               = HOVER) by (vm_compute; reflexivity).
  assert (Hl : first_time_in_new_state_
                 (self (Bench.run [state_estimate Bench.on_ground_vision;
                                   start_request]))
               = true) by (vm_compute; reflexivity).
  assert (Hvs : Forall (fun m => QuadStateEstimate.isValid m = true)
                  [Bench.estimate_at 2 QuadStateEstimate.VISION true;
                   Bench.estimate_at 3 QuadStateEstimate.VISION true])
    by (repeat constructor).
  pose proof (hover_holds_reference Bench.env _
                (Bench.estimate_at 1 QuadStateEstimate.VISION true) _
                Hm Hl eq_refl Hvs) as H.
  cbv zeta in H. destruct H as (_ & H2 & H3).
  split; [exact H2 | exact H3].
Defined.

(* ------------------------------------------------------------------ *)
(** *** Ramping the propellers down (C3, C4) *)

(** One step of the ramp is not above where it starts. *)
Lemma ramp_step_le (p T e : Q) :
  0 < T -> 0 <= p -> 0 <= e -> p - p / T * e <= p.
Proof.
  intros HT Hp He.
  assert (H : 0 <= p / T * e).
  { apply Qmult_le_0_compat; [| exact He].
    unfold Qdiv. apply Qmult_le_0_compat; [exact Hp |].
    apply Qinv_le_0_compat. now apply Qlt_le_weak. }
  lra.
Qed.

Lemma Qleb_false_lt (a b : Q) : Qleb a b = false -> b < a.
Proof. intros H. destruct (Qleb_spec a b); [discriminate | assumption]. Qed.

Lemma ticks_in_other_mode (E : Env) (m : States)
    (msgs : list QuadStateEstimate.t) (w : World) :
  autopilot_state_ (self w) <> m -> ticks_in m msgs w = w.
Proof.
  intros Hm. destruct msgs as [| msg msgs]; [reflexivity |]. cbn.
  destruct (States_beq (autopilot_state_ (self w)) m) eqn:Hb;
    [| reflexivity].
  apply internal_States_dec_bl in Hb. contradiction.
Qed.

Section RampDown.

Context {E : Env}.

(** The ramp-down lasts some time, the clock does not run backwards,
    and the base controller returns commands that can be published. *)
Hypothesis ramp_down_timeout_positive : 0 < propeller_ramp_down_timeout_.
Hypothesis clock_monotone :
  forall i j : nat, (i <= j)%nat -> wall_clock i <= wall_clock j.
Hypothesis controller_publishes :
  forall est r,
    ControlCommand.control_mode (base_controller_run est r)
    <> ControlCommand.NONE.

Lemma controller_not_NONE est r :
  ControlCommand.is_NONE
    (ControlCommand.control_mode (base_controller_run est r)) = false.
Proof.
  pose proof (controller_publishes est r) as H.
  destruct (ControlCommand.control_mode (base_controller_run est r));
    [contradiction | reflexivity ..].
Qed.

(** A tick while the node is ramping down publishes one command, whose
    thrust is not above the thrust published before; either the thrust
    is still positive and the node goes on ramping down from it, or the
    node is OFF and the command is the zeroed one. *)
Lemma ramping_tick (w : World) (prev : Q) (msg : QuadStateEstimate.t) :
  ramping_down prev w ->
  QuadStateEstimate.isValid msg = true ->
  exists c,
    control_command_pub (ros (exec (stateEstimateCallback msg) w))
    = control_command_pub (ros w) ++ [c]
    /\ ControlCommand.collective_thrust c <= prev
    /\ ((0 < ControlCommand.collective_thrust c
         /\ ramping_down (ControlCommand.collective_thrust c)
              (exec (stateEstimateCallback msg) w))
        \/ (autopilot_state_ (self (exec (stateEstimateCallback msg) w)) = OFF
            /\ ControlCommand.zero c = c)).
Proof.
  unfold ramping_down. open_world w.
  intros (-> & -> & -> & -> & Hpos & Hpast) Hv. open_estimate msg Hv.
  run. branch_run.
  - eexists. split; [reflexivity |]. cbn. split; [lra |].
    right. split; reflexivity.
  - rewrite controller_not_NONE. cbn.
    eexists. split; [reflexivity |]. cbn.
    assert (Hn : time_started_ramping_down_0 <= wall_clock (S (S now_calls0))).
    { eapply Qle_trans; [exact Hpast |]. apply clock_monotone. lia. }
    split.
    + apply ramp_step_le; [assumption | lra | lra].
    + left. match goal with H : Qleb _ 0 = false |- _ =>
              apply Qleb_false_lt in H end.
      split; [assumption |]. repeat split; try assumption.
      eapply Qle_trans; [exact Hpast |]. apply clock_monotone. lia.
Qed.

(** A LAND tick that leaves the node in LAND with the latch set has
    published one command, and the node is ramping down from its
    thrust. *)
Lemma land_tick_latched (w : World) (msg : QuadStateEstimate.t) :
  autopilot_state_ (self w) = LAND ->
  (time_to_ramp_down_ (self w) = true ->
   time_started_ramping_down_ (self w) <= wall_clock (now_calls (ros w))) ->
  QuadStateEstimate.isValid msg = true ->
  autopilot_state_ (self (exec (stateEstimateCallback msg) w)) = LAND ->
  time_to_ramp_down_ (self (exec (stateEstimateCallback msg) w)) = true ->
  exists c,
    control_command_pub (ros (exec (stateEstimateCallback msg) w))
    = control_command_pub (ros w) ++ [c]
    /\ ramping_down (ControlCommand.collective_thrust c)
         (exec (stateEstimateCallback msg) w).
Proof.
  unfold ramping_down. open_world w.
  intros -> Hpast Hv. open_estimate msg Hv.
  run. repeat (rewrite ?controller_not_NONE; branch_run).
  all: rewrite ?controller_not_NONE; cbn.
  all: intros Hm Hl; try discriminate.
  all: eexists; (split; [reflexivity |]); cbn.
  all: repeat match goal with
         | H : Qleb _ _ = false |- _ => apply Qleb_false_lt in H
         | H : Qltb _ _ = _ |- _ => clear H
         end.
  all: repeat split; try assumption.
  all: try (apply clock_monotone; lia).
  all: eapply Qle_trans;
    [apply Hpast; reflexivity | apply clock_monotone; lia].
Qed.

(** Ticks while the node is ramping down: each publishes one command,
    thrust never rises from [prev] on, and the run either stays in LAND
    on positive thrust or ends in OFF on the zeroed command. *)
Lemma ramping_ticks (msgs : list QuadStateEstimate.t) :
  forall (w : World) (prev : Q),
    ramping_down prev w ->
    Forall (fun m => QuadStateEstimate.isValid m = true) msgs ->
    exists cmds,
      control_command_pub (ros (ticks_in LAND msgs w))
      = control_command_pub (ros w) ++ cmds
      /\ never_rises (prev :: thrusts cmds)
      /\ ((autopilot_state_ (self (ticks_in LAND msgs w)) = LAND
           /\ length cmds = length msgs
           /\ Forall (fun c => 0 < ControlCommand.collective_thrust c) cmds)
          \/ (autopilot_state_ (self (ticks_in LAND msgs w)) = OFF
              /\ exists front c_off,
                   cmds = front ++ [c_off]
                   /\ Forall (fun c => 0 < ControlCommand.collective_thrust c)
                        front
                   /\ ControlCommand.zero c_off = c_off)).
Proof.
  induction msgs as [| msg msgs IH]; intros w prev Hramp Hvs.
  - exists []. cbn. rewrite app_nil_r. split; [reflexivity |].
    split; [repeat constructor |].
    left. destruct Hramp as (Hm & _). repeat split; [exact Hm | constructor].
  - inversion Hvs as [| m ms Hv Hrest]; subst.
    pose proof Hramp as (Hm & _).
    cbn [ticks_in]. rewrite Hm. change (States_beq LAND LAND) with true. cbv iota.
    destruct (ramping_tick w prev msg Hramp Hv)
      as (c & Hpub & Hle & [(Hpos & Hramp') | (Hoff & Hzero)]).
    + destruct (IH _ _ Hramp' Hrest)
        as (cmds & Hpubs & Hsorted & Hend).
      exists (c :: cmds). split; [| split].
      * rewrite Hpubs, Hpub, <- app_assoc. reflexivity.
      * constructor; [exact Hsorted | constructor; exact Hle].
      * destruct Hend as [(Hl & Hlen & Hall)
                         | (Ho & front & c_off & Hc & Hall & Hz)].
        -- left. split; [exact Hl |]. split; [cbn; now rewrite Hlen |].
           constructor; assumption.
        -- right. split; [exact Ho |].
           exists (c :: front), c_off. split; [now rewrite Hc |].
           split; [constructor; assumption | exact Hz].
    + rewrite ticks_in_other_mode by (rewrite Hoff; discriminate).
      exists [c]. split; [exact Hpub |]. split.
      * constructor; [repeat constructor | constructor; exact Hle].
      * right. split; [exact Hoff |].
        exists [], c. split; [reflexivity |]. split; [constructor | exact Hzero].
Qed.

End RampDown.

(** C3. Take a LAND tick that leaves the node in LAND with the ramp-down
    latch set, and any run of LAND ticks on valid estimates after it. Each
    tick publishes one command; from the command of the first tick on, the
    thrust of each command is at most the thrust of the command before it;
    and for as long as the thrust stays positive the node stays in LAND,
    while the tick whose ramp reaches zero or less puts the node in OFF and
    publishes the zeroed command. This holds for a positive ramp-down
    timeout, a clock that does not run backwards and a base controller
    whose commands can be published. *)
Theorem ramp_down_thrust_never_rises (E : Env) (w0 : World)
    (msg : QuadStateEstimate.t) (msgs : list QuadStateEstimate.t) :
  0 < propeller_ramp_down_timeout_ ->
  (forall i j : nat, (i <= j)%nat -> wall_clock i <= wall_clock j) ->
  (forall est r,
     ControlCommand.control_mode (base_controller_run est r)
     <> ControlCommand.NONE) ->
  autopilot_state_ (self w0) = LAND ->
  (time_to_ramp_down_ (self w0) = true ->
   time_started_ramping_down_ (self w0) <= wall_clock (now_calls (ros w0))) ->
  QuadStateEstimate.isValid msg = true ->
  Forall (fun m => QuadStateEstimate.isValid m = true) msgs ->
  let w1 := exec (stateEstimateCallback msg) w0 in
  let w' := ticks_in LAND msgs w1 in
  autopilot_state_ (self w1) = LAND ->
  time_to_ramp_down_ (self w1) = true ->
  exists c1 cmds,
    control_command_pub (ros w1) = control_command_pub (ros w0) ++ [c1]
    /\ control_command_pub (ros w') = control_command_pub (ros w1) ++ cmds
    /\ never_rises (thrusts (c1 :: cmds))
    /\ ((autopilot_state_ (self w') = LAND
         /\ length cmds = length msgs
         /\ Forall (fun c => 0 < ControlCommand.collective_thrust c) cmds)
        \/ (autopilot_state_ (self w') = OFF
            /\ exists front c_off,
                 cmds = front ++ [c_off]
                 /\ Forall (fun c => 0 < ControlCommand.collective_thrust c)
                      front
                 /\ ControlCommand.zero c_off = c_off)).
Proof.
  intros HT Hclock Hctrl Hm Hpast Hv Hvs. cbv zeta. intros Hm1 Hl1.
  destruct (land_tick_latched Hclock Hctrl w0 msg Hm Hpast Hv Hm1 Hl1)
    as (c1 & Hpub1 & Hramp).
  destruct (ramping_ticks HT Hclock Hctrl msgs _ _ Hramp Hvs)
    as (cmds & Hpubs & Hsorted & Hend).
  exists c1, cmds. split; [exact Hpub1 |]. split; [exact Hpubs |].
  split; [exact Hsorted | exact Hend].
Qed.

Lemma Bench_clock_monotone (i j : nat) :
  (i <= j)%nat ->
  wall_clock (Env := Bench.env) i <= wall_clock (Env := Bench.env) j.
Proof.
  intros Hij. cbn. unfold Qdiv. apply Qmult_le_compat_r.
  - rewrite <- Zle_Qle. lia.
  - discriminate.
Qed.

Lemma ramp_down_thrust_never_rises_witness :
  exists c1 cmds,
    control_command_pub
      (ros (exec (E := Bench.env) (stateEstimateCallback Bench.on_ground)
              (Bench.run (Bench.landing 0))))
    = control_command_pub (ros (Bench.run (Bench.landing 0))) ++ [c1]
    /\ control_command_pub
         (ros (ticks_in LAND (repeat Bench.on_ground 4)
                 (exec (E := Bench.env) (stateEstimateCallback Bench.on_ground)
                    (Bench.run (Bench.landing 0)))))
       = control_command_pub
           (ros (exec (E := Bench.env) (stateEstimateCallback Bench.on_ground)
                   (Bench.run (Bench.landing 0)))) ++ cmds
    /\ never_rises (thrusts (c1 :: cmds))
    /\ ((autopilot_state_
           (self (ticks_in LAND (repeat Bench.on_ground 4)
                    (exec (E := Bench.env)
                       (stateEstimateCallback Bench.on_ground)
                       (Bench.run (Bench.landing 0))))) = LAND
         /\ length cmds = length (repeat Bench.on_ground 4)
         /\ Forall (fun c => 0 < ControlCommand.collective_thrust c) cmds)
        \/ (autopilot_state_
              (self (ticks_in LAND (repeat Bench.on_ground 4)
                       (exec (E := Bench.env)
                          (stateEstimateCallback Bench.on_ground)
                          (Bench.run (Bench.landing 0))))) = OFF
            /\ exists front c_off,
                 cmds = front ++ [c_off]
                 /\ Forall (fun c => 0 < ControlCommand.collective_thrust c)
                      front
                 /\ ControlCommand.zero c_off = c_off)).
Proof.
  assert (HT : 0 < propeller_ramp_down_timeout_ (Env := Bench.env))
    by reflexivity.
  assert (Hctrl : forall est r,
             ControlCommand.control_mode
               (base_controller_run (Env := Bench.env) est r)
             <> ControlCommand.NONE)
    by (intros est r; cbn; discriminate).
  assert (Hm : autopilot_state_ (self (Bench.run (Bench.landing 0))) = LAND)
    by (vm_compute; reflexivity).
  assert (Hpast : time_to_ramp_down_ (self (Bench.run (Bench.landing 0))) = true ->
                  time_started_ramping_down_ (self (Bench.run (Bench.landing 0)))
                  <= wall_clock (Env := Bench.env)
                       (now_calls (ros (Bench.run (Bench.landing 0)))))
    by (intros H; vm_compute in H; discriminate H).
  assert (Hvs : Forall (fun m => QuadStateEstimate.isValid m = true)
                  (repeat Bench.on_ground 4))
    by (repeat constructor).
  assert (Hm1 : autopilot_state_
                  (self (exec (E := Bench.env)
                           (stateEstimateCallback Bench.on_ground)
                           (Bench.run (Bench.landing 0)))) = LAND)
    by (vm_compute; reflexivity).
  assert (Hl1 : time_to_ramp_down_
                  (self (exec (E := Bench.env)
                           (stateEstimateCallback Bench.on_ground)
                           (Bench.run (Bench.landing 0)))) = true)
    by (vm_compute; reflexivity).
  exact (ramp_down_thrust_never_rises Bench.env (Bench.run (Bench.landing 0))
           Bench.on_ground (repeat Bench.on_ground 4)
           HT Bench_clock_monotone Hctrl Hm Hpast eq_refl Hvs Hm1 Hl1).
Defined.

(** The formula of [land] is the ramp of the specification, started at
    [initial_drop_thrust_]. *)
Lemma land_formula_is_linear_ramp (thrust0 timeout t : Q) :
  thrust0 - thrust0 / timeout * t == linear_ramp thrust0 timeout t.
Proof. unfold linear_ramp, Qdiv. ring. Qed.

(** What a ramping tick does with [initial_drop_thrust_]: when the ramped
    thrust is positive and the controller's command can be published, the
    tick publishes the ramped thrust and stores it as the value the next
    tick ramps from. *)
Lemma ramping_tick_restarts (E : Env) (w : World)
    (msg : QuadStateEstimate.t) :
  (forall est r,
     ControlCommand.control_mode (base_controller_run est r)
     <> ControlCommand.NONE) ->
  autopilot_state_ (self w) = LAND ->
  first_time_in_new_state_ (self w) = false ->
  time_to_ramp_down_ (self w) = true ->
  QuadStateEstimate.isValid msg = true ->
  0 < initial_drop_thrust_ (self w)
      - initial_drop_thrust_ (self w) / propeller_ramp_down_timeout_
        * (wall_clock (S (S (now_calls (ros w))))
           - time_started_ramping_down_ (self w)) ->
  initial_drop_thrust_ (self (exec (stateEstimateCallback msg) w))
  = initial_drop_thrust_ (self w)
    - initial_drop_thrust_ (self w) / propeller_ramp_down_timeout_
      * (wall_clock (S (S (now_calls (ros w))))
         - time_started_ramping_down_ (self w))
  /\ time_started_ramping_down_ (self (exec (stateEstimateCallback msg) w))
     = time_started_ramping_down_ (self w).
Proof.
  intros Hctrl. open_world w. intros -> -> -> Hv Hpos.
  open_estimate msg Hv. run.
  match goal with
  | |- context [Qleb ?a 0] => destruct (Qleb_spec a 0) as [Hle | Hlt]
  end.
  - lra.
  - run. rewrite (controller_not_NONE Hctrl). cbn. split; reflexivity.
Qed.

(** C4, on the code: [publishControlCommand] overwrites
    [initial_drop_thrust_] with every command it publishes, the ramped ones
    included, so each tick ramps from the thrust of the tick before and not
    from the thrust issued when the latch was set. On the test bench the
    last thrust issued before the latch is set is 2 and the latch is set at
    0.8 s. The first ramping tick computes its thrust 0.1 s later and
    publishes 9/5, which is the linear ramp from 2 over 1 s; the second
    computes its thrust 0.4 s after the latch and publishes 27/25, where
    the linear ramp from 2 gives 6/5. *)
Theorem ramp_down_restarts_from_last_thrust :
  let before := Bench.run (Bench.landing 0) in
  let first := Bench.run (Bench.landing 1) in
  let second := Bench.run (Bench.landing 2) in
  let timeout := propeller_ramp_down_timeout_ (Env := Bench.env) in
  (time_to_ramp_down_ (self before) = false
   /\ Qred (initial_drop_thrust_ (self before)) = 2)
  /\ (time_to_ramp_down_ (self first) = true
      /\ autopilot_state_ (self first) = LAND
      /\ Qred (time_started_ramping_down_ (self first)) = 4 # 5
      /\ now_calls (ros first) = 10%nat
      /\ Qred (wall_clock (Env := Bench.env) 9
               - time_started_ramping_down_ (self first)) = 1 # 10)
  /\ (time_to_ramp_down_ (self second) = true
      /\ autopilot_state_ (self second) = LAND
      /\ Qred (time_started_ramping_down_ (self second)) = 4 # 5
      /\ now_calls (ros second) = 13%nat
      /\ Qred (wall_clock (Env := Bench.env) 12
               - time_started_ramping_down_ (self second)) = 2 # 5)
  /\ map Qred (thrusts (control_command_pub (ros second)))
     = [0; 2; 9 # 5; 27 # 25]
  /\ Qred (linear_ramp 2 timeout (1 # 10)) = 9 # 5
  /\ Qred (linear_ramp 2 timeout (2 # 5)) = 6 # 5.
Proof.
  vm_compute. repeat split.
Qed.

(* ------------------------------------------------------------------ *)
(** *** Two facts about every reachable state *)

(** When an estimate is marked available, the estimate kept is valid. *)
Lemma spin_keeps_available_valid (E : Env) (e : Event) (w : World) :
  (state_estimate_available_ (self w) = true ->
   QuadStateEstimate.isValid (received_state_est_ (self w)) = true) ->
  state_estimate_available_ (self (exec (spin e) w)) = true ->
  QuadStateEstimate.isValid (received_state_est_ (self (exec (spin e) w)))
  = true.
Proof.
  open_world w. intros Hinv.
  destruct e; try exact Hinv.
  - destruct msg as [p o v valid f]. destruct valid;
      destruct autopilot_state_0; run; repeat branch_run;
      intros H; (reflexivity || discriminate H).
  - destruct msg_is_RC_MANUAL, autopilot_state_0; run; repeat branch_run;
      exact Hinv.
  - destruct autopilot_state_0; run; exact Hinv.
  - destruct autopilot_state_0; run; repeat branch_run;
      intros H; (reflexivity || (apply Hinv; exact H) || discriminate H).
  - destruct autopilot_state_0; run; repeat branch_run;
      intros H; (reflexivity || (apply Hinv; exact H) || discriminate H).
  - destruct autopilot_state_0; run; exact Hinv.
Qed.

Lemma reachable_available_valid (E : Env) (w : World) :
  reachable w ->
  state_estimate_available_ (self w) = true ->
  QuadStateEstimate.isValid (received_state_est_ (self w)) = true.
Proof.
  induction 1 as [p1 p2 f | w e _ IH].
  - discriminate.
  - now apply spin_keeps_available_valid.
Qed.

(** When the clock does not run backwards, the time the ramp-down latch
    was set at is not in the future. *)
Lemma spin_keeps_ramp_start_past (E : Env) (e : Event) (w : World) :
  (forall i j : nat, (i <= j)%nat -> wall_clock i <= wall_clock j) ->
  (time_to_ramp_down_ (self w) = true ->
   time_started_ramping_down_ (self w) <= wall_clock (now_calls (ros w))) ->
  time_to_ramp_down_ (self (exec (spin e) w)) = true ->
  time_started_ramping_down_ (self (exec (spin e) w))
  <= wall_clock (now_calls (ros (exec (spin e) w))).
Proof.
  intros Hclock. open_world w. intros Hinv.
  assert (Hlater : forall k, time_to_ramp_down_0 = true ->
            (now_calls0 <= k)%nat ->
            time_started_ramping_down_0 <= wall_clock k).
  { intros k Hl Hk. eapply Qle_trans; [apply Hinv; exact Hl |].
    apply Hclock. exact Hk. }
  clear Hinv.
  destruct e.
  - destruct msg as [p o v valid f]. destruct valid;
      destruct autopilot_state_0; run; repeat branch_run;
      intros H; try discriminate H;
      first [ apply Hlater; [exact H | lia] | apply Hclock; lia ].
  - destruct msg_is_RC_MANUAL, autopilot_state_0; run; repeat branch_run;
      intros H; (apply Hlater; [exact H | lia]).
  - intros H; (apply Hlater; [exact H | cbn; lia]).
  - intros H; (apply Hlater; [exact H | cbn; lia]).
  - intros H; (apply Hlater; [exact H | cbn; lia]).
  - intros H; (apply Hlater; [exact H | cbn; lia]).
  - destruct autopilot_state_0; run;
      intros H; (apply Hlater; [exact H | lia]).
  - destruct autopilot_state_0; run; repeat branch_run;
      intros H; (apply Hlater; [exact H | lia]).
  - destruct autopilot_state_0; run; repeat branch_run;
      intros H; (apply Hlater; [exact H | lia]).
  - destruct autopilot_state_0; run;
      intros H; (apply Hlater; [exact H | lia]).
Qed.

Lemma reachable_ramp_start_past (E : Env) (w : World) :
  (forall i j : nat, (i <= j)%nat -> wall_clock i <= wall_clock j) ->
  reachable w ->
  time_to_ramp_down_ (self w) = true ->
  time_started_ramping_down_ (self w) <= wall_clock (now_calls (ros w)).
Proof.
  intros Hclock. induction 1 as [p1 p2 f | w e _ IH].
  - discriminate.
  - now apply spin_keeps_ramp_start_past.
Qed.
